(** * MMDataParallel (mmcv/parallel/data_parallel.py)

    A shallow embedding of the [MMDataParallel] wrapper and the proofs of
    its control-flow properties.  The class itself is a few lines of device
    bookkeeping around primitives of the host framework (scatter_kwargs,
    replicate, parallel_apply, gather, the wrapped module's own methods);
    those primitives are not part of the file under verification and are
    taken as an interface, [Torch], over which every theorem quantifies. *)

From Stdlib Require Import ZArith List Ascii String Bool Lia DecimalString.
Import ListNotations.
Set Warnings "-register-all".
Open Scope Z_scope.
Open Scope string_scope.

(** ** Python values *)

(** The values passed through the wrapper.  [PyRef] stands for any object
    owned by the framework (a tensor, a DataContainer, ...). *)
Inductive pyobj : Type :=
| PyNone
| PyInt (z : Z)
| PyStr (s : string)
| PyRef (addr : Z)
| PyTuple (items : list pyobj)
| PyList (items : list pyobj)
| PyDict (items : list (string * pyobj)).

(** Positional arguments ([*inputs]) and keyword arguments ([**kwargs]). *)
Definition args := list pyobj.
Definition kwargs := list (string * pyobj).

Inductive exn : Type :=
| RuntimeError (msg : string)
| AssertionError (msg : string)
| IndexError (msg : string)
| TypeError (msg : string)
| AttributeError (msg : string)
| OtherError (name msg : string).

Inductive Result (A : Type) : Type :=
| Ok (a : A)
| Raise (e : exn).
Arguments Ok {A} a.
Arguments Raise {A} e.

(** [str(i)] for a Python int. *)
Definition py_str_int (z : Z) : string := NilZero.string_of_int (Z.to_int z).

(** [type(x).__name__], as it appears in Python's error messages. *)
Definition py_type_name (x : pyobj) : string :=
  match x with
  | PyNone => "NoneType"
  | PyInt _ => "int"
  | PyStr _ => "str"
  | PyRef _ => "object"
  | PyTuple _ => "tuple"
  | PyList _ => "list"
  | PyDict _ => "dict"
  end.

(** Unpacking a double-starred call argument: the object has to be a
    mapping, and of the values modelled here only a dict is one. *)
Definition py_unpack_mapping (fname : string) (x : pyobj) : Result kwargs :=
  match x with
  | PyDict kvs => Ok kvs
  | _ => Raise (TypeError (fname ++ "() argument after ** must be a mapping, not "
                                 ++ py_type_name x))
  end.

(** [xs[0]] on a tuple. *)
Definition tuple_index0 {A : Type} (xs : list A) : Result A :=
  match xs with
  | x :: _ => Ok x
  | [] => Raise (IndexError "tuple index out of range")
  end.

(** [xs[0]] on a list. *)
Definition list_index0 {A : Type} (xs : list A) : Result A :=
  match xs with
  | x :: _ => Ok x
  | [] => Raise (IndexError "list index out of range")
  end.

(** [list(range(n))]. *)
Definition py_range (n : nat) : list Z := map Z.of_nat (seq 0 n).

(** ** Devices, tensors, modules *)

(** A [torch.device]: a type and an optional index, compared structurally. *)
Record Device : Type := mkDevice { dev_type : string; dev_index : option Z }.

Definition Device_eqb (a b : Device) : bool :=
  String.eqb (dev_type a) (dev_type b) &&
  match dev_index a, dev_index b with
  | Some i, Some j => Z.eqb i j
  | None, None => true
  | _, _ => false
  end.

(** [str(device)]. *)
Definition Device_str (d : Device) : string :=
  match dev_index d with
  | Some i => dev_type d ++ ":" ++ py_str_int i
  | None => dev_type d
  end.

Record Tensor : Type := mkTensor { tensor_ref : Z; device : Device }.

(** A reference to an [nn.Module] (the wrapped module or one of its
    replicas); its contents live in the framework's heap. *)
Inductive Module : Type := ModuleRef (addr : Z).

(** ** The instance *)

(** The attributes [__init__] sets.  [output_device] and [src_device_obj]
    are not set on the CPU-only path. *)
Record MMDataParallel : Type := mkMMDataParallel {
  module : Module;
  device_ids : list Z;
  dim : Z;
  output_device : option Z;
  src_device_obj : option Device
}.

(** ** The host framework *)

(** What the file imports or inherits and does not define.  [Heap] is
    whatever state the framework owns (device memory, the contents of the
    modules, the autograd graph).  A primitive that can change it returns
    the new heap; one that only reads does not. *)
Class Torch : Type := {
  Heap : Type;
  (** [torch.cuda.is_available()], [torch.cuda.device_count()] *)
  cuda_is_available : Heap -> bool;
  cuda_device_count : Heap -> nat;
  (** [torch.cuda._utils._get_device_index(device, optional)] *)
  _get_device_index : pyobj -> bool -> Heap -> Result Z;
  (** [torch.device(s)] *)
  torch_device : string -> Heap -> Result Device;
  (** [torch.nn.parallel.data_parallel._check_balance(device_ids)] *)
  _check_balance : list Z -> Heap -> Result unit * Heap;
  (** [module.cuda(device)], [module.parameters()], [module.buffers()] *)
  module_cuda : Module -> pyobj -> Heap -> Result unit * Heap;
  module_parameters : Module -> Heap -> list Tensor;
  module_buffers : Module -> Heap -> list Tensor;
  (** The wrapped module called on positional arguments [a] and keyword
      arguments [k], and its [train_step] and [val_step] methods. *)
  module_call : Module -> args -> kwargs -> Heap -> Result pyobj * Heap;
  module_train_step : Module -> args -> kwargs -> Heap -> Result pyobj * Heap;
  module_val_step : Module -> args -> kwargs -> Heap -> Result pyobj * Heap;
  (** [scatter_kwargs(inputs, kwargs, target_gpus, dim)] of
      [.scatter_gather]: a tuple of per-target argument tuples and a tuple
      of per-target keyword dicts. *)
  scatter_kwargs :
    args -> kwargs -> pyobj -> Z -> Heap ->
    Result (list args * list kwargs) * Heap;
  (** The methods inherited from [DataParallel]; they receive [self]. *)
  DataParallel_replicate :
    MMDataParallel -> Module -> list Z -> Heap -> Result (list Module) * Heap;
  DataParallel_parallel_apply :
    MMDataParallel -> list Module -> list args -> list kwargs -> Heap ->
    Result (list pyobj) * Heap;
  DataParallel_gather :
    MMDataParallel -> list pyobj -> Z -> Heap -> Result pyobj * Heap
}.

(** The calls into the framework that a method makes, in order. *)
Inductive Event : Type :=
| EvScatter (inputs : args) (kw : kwargs) (target_gpus : pyobj) (d : Z)
| EvReplicate (m : Module) (devices : list Z)
| EvParallelApply (replicas : list Module)
                  (inputs : list args) (kw : list kwargs)
| EvGather (outputs : list pyobj) (target : Z)
| EvCall (m : Module) (a : args) (k : kwargs)
| EvTrainStep (m : Module) (a : args) (k : kwargs)
| EvValStep (m : Module) (a : args) (k : kwargs)
| EvCheckBalance (ids : list Z)
| EvCuda (m : Module) (dev : pyobj).

(** Replication, parallel application or gathering. *)
Definition is_multi_device_step (e : Event) : bool :=
  match e with
  | EvReplicate _ _ | EvParallelApply _ _ _ | EvGather _ _ => true
  | _ => false
  end.

Section WithTorch.
Context {T : Torch}.

(** ** The monad: framework state, exceptions, and the log of calls *)

Record World : Type := mkWorld { heap : Heap; trace : list Event }.

Definition M (A : Type) : Type := World -> Result A * World.

Definition ret {A : Type} (a : A) : M A := fun w => (Ok a, w).

Definition raise {A : Type} (e : exn) : M A := fun w => (Raise e, w).

Definition bind {A B : Type} (m : M A) (k : A -> M B) : M B :=
  fun w =>
    match m w with
    | (Ok a, w') => k a w'
    | (Raise e, w') => (Raise e, w')
    end.

(** A value that may be an exception. *)
Definition lift {A : Type} (r : Result A) : M A := fun w => (r, w).

(** A read of the framework state. *)
Definition read {A : Type} (f : Heap -> A) : M A :=
  fun w => (Ok (f (heap w)), w).

(** A read of the framework state that may raise. *)
Definition read_result {A : Type} (f : Heap -> Result A) : M A :=
  fun w => (f (heap w), w).

(** A call into the framework: logged, then run on the heap. *)
Definition call {A : Type} (ev : Event) (prim : Heap -> Result A * Heap) : M A :=
  fun w =>
    let (r, h) := prim (heap w) in
    (r, {| heap := h; trace := trace w ++ [ev] |}).

Notation "x <- m ;; k" := (bind m (fun x => k))
  (at level 100, m at next level, right associativity).
Notation "' p <- m ;; k" := (bind m (fun x => let p := x in k))
  (at level 100, p pattern, m at next level, right associativity).
Notation "m ;;; k" := (bind m (fun _ => k))
  (at level 100, right associativity).

Fixpoint mapM {A B : Type} (f : A -> M B) (xs : list A) : M (list B) :=
  match xs with
  | [] => ret []
  | x :: xs' => y <- f x ;; ys <- mapM f xs' ;; ret (y :: ys)
  end.

(** ** Attribute access *)

Definition get_output_device (self : MMDataParallel) : M Z :=
  match output_device self with
  | Some d => ret d
  | None => raise (AttributeError
      "'MMDataParallel' object has no attribute 'output_device'")
  end.

Definition get_src_device_obj (self : MMDataParallel) : M Device :=
  match src_device_obj self with
  | Some d => ret d
  | None => raise (AttributeError
      "'MMDataParallel' object has no attribute 'src_device_obj'")
  end.

(** ** [MMDataParallel.__init__] (lines 28-54) *)

(** [super(DataParallel, self).__init__()], the initialiser of
    [nn.Module], sets up empty registries and is left out. *)
Definition __init__ (module0 : Module) (device_ids0 : option (list pyobj))
    (output_device0 : option pyobj) (dim0 : Z) : M MMDataParallel :=
  available <- read cuda_is_available ;;
  if negb available then
    ret {| module := module0; device_ids := []; dim := dim0;
           output_device := None; src_device_obj := None |}
  else
    device_ids1 <- match device_ids0 with
                   | None => n <- read cuda_device_count ;;
                             ret (map PyInt (py_range n))
                   | Some ids => ret ids
                   end ;;
    output_device1 <- match output_device0 with
                      | None => lift (list_index0 device_ids1)
                      | Some o => ret o
                      end ;;
    self_device_ids <-
      mapM (fun x => read_result (_get_device_index x true)) device_ids1 ;;
    self_output_device <- read_result (_get_device_index output_device1 true) ;;
    first <- lift (list_index0 self_device_ids) ;;
    self_src_device_obj <- read_result (torch_device ("cuda:" ++ py_str_int first)) ;;
    call (EvCheckBalance self_device_ids) (_check_balance self_device_ids) ;;;
    let self := {| module := module0; device_ids := self_device_ids;
                   dim := dim0;
                   output_device := Some self_output_device;
                   src_device_obj := Some self_src_device_obj |} in
    if (List.length self_device_ids =? 1)%nat then
      d0 <- lift (list_index0 device_ids1) ;;
      call (EvCuda module0 d0) (module_cuda module0 d0) ;;;
      ret self
    else ret self.

(** ** [MMDataParallel.scatter] (lines 82-83) *)

Definition scatter (self : MMDataParallel) (inputs : args) (kw : kwargs)
    (target : pyobj) : M (list args * list kwargs) :=
  call (EvScatter inputs kw target (dim self))
       (scatter_kwargs inputs kw target (dim self)).

(** The three inherited methods, as [self.replicate], [self.parallel_apply]
    and [self.gather]. *)
Definition replicate (self : MMDataParallel) (m : Module) (devs : list Z)
    : M (list Module) :=
  call (EvReplicate m devs) (DataParallel_replicate self m devs).

Definition parallel_apply (self : MMDataParallel) (replicas : list Module)
    (inputs : list args) (kw : list kwargs) : M (list pyobj) :=
  call (EvParallelApply replicas inputs kw)
       (DataParallel_parallel_apply self replicas inputs kw).

Definition gather (self : MMDataParallel) (outputs : list pyobj) (target : Z)
    : M pyobj :=
  call (EvGather outputs target) (DataParallel_gather self outputs target).

(** ** The parameter and buffer check

    The loop
<<
    for t in chain(self.module.parameters(), self.module.buffers()):
        if t.device != self.src_device_obj:
            raise RuntimeError(...)
>>
    which the source repeats in [forward] (68-73), [train_step] (95-100)
    and [val_step] (115-120). *)

Definition device_mismatch_message (src found : Device) : string :=
  "module must have its parameters and buffers on device " ++ Device_str src
  ++ " (device_ids[0]) but found one of them on device: " ++ Device_str found.

Fixpoint check_tensors (self : MMDataParallel) (ts : list Tensor) : M unit :=
  match ts with
  | [] => ret tt
  | t :: ts' =>
      src <- get_src_device_obj self ;;
      if negb (Device_eqb (device t) src) then
        raise (RuntimeError (device_mismatch_message src (device t)))
      else check_tensors self ts'
  end.

Definition check_module_device (self : MMDataParallel) : M unit :=
  ps <- read (module_parameters (module self)) ;;
  bs <- read (module_buffers (module self)) ;;
  check_tensors self (ps ++ bs).

(** ** [MMDataParallel.forward] (lines 56-80) *)

Definition is_empty {A : Type} (xs : list A) : bool :=
  match xs with [] => true | _ => false end.

Definition ids_object (ids : list Z) : pyobj := PyList (map PyInt ids).

Definition forward (self : MMDataParallel) (inputs : args) (kw : kwargs)
    : M pyobj :=
  if is_empty (device_ids self) then
    '(inputs1, kwargs1) <- scatter self inputs kw (PyList [PyInt (-1)]) ;;
    a0 <- lift (tuple_index0 inputs1) ;;
    k0 <- lift (tuple_index0 kwargs1) ;;
    call (EvCall (module self) a0 k0) (module_call (module self) a0 k0)
  else
    check_module_device self ;;;
    '(inputs1, kwargs1) <- scatter self inputs kw (ids_object (device_ids self)) ;;
    if (List.length (device_ids self) =? 1)%nat then
      a0 <- lift (tuple_index0 inputs1) ;;
      k0 <- lift (tuple_index0 kwargs1) ;;
      call (EvCall (module self) a0 k0) (module_call (module self) a0 k0)
    else
      replicas <- replicate self (module self)
                    (firstn (List.length inputs1) (device_ids self)) ;;
      outputs <- parallel_apply self replicas inputs1 kwargs1 ;;
      target <- get_output_device self ;;
      gather self outputs target.

(** ** [MMDataParallel.train_step] (85-103) and [val_step] (105-123)

    The two methods differ in the method of the wrapped module they end
    in; [step] is their common text, instantiated below.  On the CPU-only
    path the scattered pair is passed on whole: [*inputs] makes each
    per-target tuple one positional argument and [**kwargs] is applied to
    the tuple of per-target dicts.  The [assert] statement is executed
    (the interpreter does not run with assertions stripped), and the
    wrapped module is one that defines both methods. *)

Definition single_gpu_message : string :=
  "MMDataParallel only supports single GPU training, if you need to"
  ++ " train with multiple GPUs, please use MMDistributedDataParallel"
  ++ "instead.".

Definition step (name : string)
    (ev : Module -> args -> kwargs -> Event)
    (method : Module -> args -> kwargs -> Heap -> Result pyobj * Heap)
    (self : MMDataParallel) (inputs : args) (kw : kwargs) : M pyobj :=
  if is_empty (device_ids self) then
    '(inputs1, kwargs1) <- scatter self inputs kw (PyInt (-1)) ;;
    let a := map PyTuple inputs1 in
    k <- lift (py_unpack_mapping name (PyTuple (map PyDict kwargs1))) ;;
    call (ev (module self) a k) (method (module self) a k)
  else
    (if (List.length (device_ids self) =? 1)%nat then ret tt
     else raise (AssertionError single_gpu_message)) ;;;
    check_module_device self ;;;
    '(inputs1, kwargs1) <- scatter self inputs kw (ids_object (device_ids self)) ;;
    a0 <- lift (tuple_index0 inputs1) ;;
    k0 <- lift (tuple_index0 kwargs1) ;;
    call (ev (module self) a0 k0) (method (module self) a0 k0).

Definition train_step : MMDataParallel -> args -> kwargs -> M pyobj :=
  step "train_step" EvTrainStep module_train_step.

Definition val_step : MMDataParallel -> args -> kwargs -> M pyobj :=
  step "val_step" EvValStep module_val_step.

(** ** Reference behaviours, written from the specification's wording *)

(** The parameters and buffers the check iterates over,
    [chain(module.parameters(), module.buffers())]. *)
Definition module_tensors (self : MMDataParallel) (h : Heap) : list Tensor :=
  module_parameters (module self) h ++ module_buffers (module self) h.

(** "Scatters inputs and kwargs to the target and returns the wrapped
    module's method applied to the first scattered replica": one call of
    scatter_kwargs along [dim self], then one call of [method] on the first
    element of each scattered tuple; an exception of either call, or the
    IndexError of an empty scattered tuple, is the outcome. *)
Definition scatter_then_first_replica
    (ev : Module -> args -> kwargs -> Event)
    (method : Module -> args -> kwargs -> Heap -> Result pyobj * Heap)
    (target : pyobj)
    (self : MMDataParallel) (inputs : args) (kw : kwargs) : M pyobj :=
  fun w =>
    let logged := (trace w ++ [EvScatter inputs kw target (dim self)])%list in
    match scatter_kwargs inputs kw target (dim self) (heap w) with
    | (Ok (a0 :: _, k0 :: _), h1) =>
        let (r, h2) := method (module self) a0 k0 h1 in
        (r, {| heap := h2; trace := logged ++ [ev (module self) a0 k0] |})
    | (Ok _, h1) =>
        (Raise (IndexError "tuple index out of range"),
         {| heap := h1; trace := logged |})
    | (Raise e, h1) => (Raise e, {| heap := h1; trace := logged |})
    end.

(** The general pipeline of [DataParallel]: scatter over the configured
    devices, replicate onto the devices that received a chunk, apply the
    replicas, gather on the output device. *)
Definition scatter_replicate_apply_gather
    (self : MMDataParallel) (inputs : args) (kw : kwargs) : M pyobj :=
  '(inputs1, kwargs1) <- scatter self inputs kw (ids_object (device_ids self)) ;;
  replicas <- replicate self (module self)
                (firstn (List.length inputs1) (device_ids self)) ;;
  outputs <- parallel_apply self replicas inputs1 kwargs1 ;;
  target <- get_output_device self ;;
  gather self outputs target.


End WithTorch.

Arguments World T : clear implicits.
Arguments M T A : clear implicits.

(** ** A small framework to run the definitions on

    Scattering cuts a list argument into pieces and hands any other
    argument to every target whole (and, as scatter_kwargs does, yields
    nothing for no arguments and fills up the shorter tuple); a module call
    returns its arguments and counts the call; a replica is the module
    itself; the replicas are applied one after the other; gathering a
    single output returns it. *)
Module Toy.

Record machine : Type := mkMachine {
  cuda : bool;
  count : nat;
  params : list Tensor;
  buffers : list Tensor;
  calls : Z
}.

Definition called (h : machine) : machine :=
  {| cuda := cuda h; count := count h; params := params h;
     buffers := buffers h; calls := calls h + 1 |}.

Definition get_device_index (x : pyobj) (optional : bool) (h : machine) : Result Z :=
  match x with
  | PyInt i => Ok i
  | PyNone => if optional then Ok 0
              else Raise (OtherError "ValueError" "Expected a cuda device with a specified index")
  | _ => Raise (OtherError "ValueError" "Expected a cuda device")
  end.

Definition parse_device (s : string) (h : machine) : Result Device :=
  match s with
  | String "c"%char (String "u"%char (String "d"%char
      (String "a"%char (String ":"%char rest)))) =>
      match NilZero.uint_of_string rest with
      | Some u => Ok (mkDevice "cuda" (Some (Z.of_uint u)))
      | None => Raise (RuntimeError ("Invalid device string: " ++ s))
      end
  | _ => Raise (RuntimeError ("Invalid device string: " ++ s))
  end.

Definition move_to (d : Device) (t : Tensor) : Tensor :=
  {| tensor_ref := tensor_ref t; device := d |}.

Definition to_cuda (m : Module) (dev : pyobj) (h : machine) : Result unit * machine :=
  match dev with
  | PyInt i =>
      let d := mkDevice "cuda" (Some i) in
      (Ok tt, {| cuda := cuda h; count := count h;
                 params := map (move_to d) (params h);
                 buffers := map (move_to d) (buffers h);
                 calls := calls h |})
  | _ => (Raise (OtherError "ValueError" "Expected a cuda device"), h)
  end.

Definition answer (tag : string) (m : Module) (a : args) (k : kwargs)
    (h : machine) : Result pyobj * machine :=
  (Ok (PyTuple [PyStr tag; PyTuple a; PyDict k]), called h).

Definition targets (target : pyobj) : Result (list pyobj) :=
  match target with
  | PyList ids => Ok ids
  | PyTuple ids => Ok ids
  | _ => Raise (TypeError ("'" ++ py_type_name target ++ "' object is not iterable"))
  end.

(** Pieces of [size] elements, in order. *)
Fixpoint chunk {A : Type} (fuel size : nat) (xs : list A) : list (list A) :=
  match fuel, xs with
  | S fuel', _ :: _ => firstn size xs :: chunk fuel' size (skipn size xs)
  | _, _ => []
  end.

(** A list is a batch and is cut into at most [n] pieces of equal size,
    one for each of the first targets; any other object goes to every
    target as it is. *)
Definition scatter_obj (n : nat) (x : pyobj) : list pyobj :=
  match x with
  | PyList samples =>
      let len := List.length samples in
      map PyList (chunk len ((len + n - 1) / n) samples)
  | _ => repeat x n
  end.

(** [zip( *columns)]: as many rows as the shortest column has entries. *)
Definition zip_rows (columns : list (list pyobj)) : list (list pyobj) :=
  let lengths := map (@List.length pyobj) columns in
  let n := fold_right Nat.min (hd 0%nat lengths) lengths in
  map (fun i => map (fun column => nth i column PyNone) columns) (seq 0 n).

Definition scatter_args (inputs : args) (target : pyobj) : Result (list args) :=
  if is_empty inputs then Ok []
  else match targets target with
       | Ok ids => Ok (zip_rows (map (scatter_obj (List.length ids)) inputs))
       | Raise e => Raise e
       end.

Definition scatter_kws (kw : kwargs) (target : pyobj) : Result (list kwargs) :=
  if is_empty kw then Ok []
  else match targets target with
       | Ok ids =>
           Ok (map (combine (map fst kw))
                   (zip_rows (map (scatter_obj (List.length ids)) (map snd kw))))
       | Raise e => Raise e
       end.

(** The shorter of the two scattered tuples is filled up with empty
    arguments. *)
Definition pad {A : Type} (n : nat) (xs : list (list A)) : list (list A) :=
  (xs ++ repeat [] (n - List.length xs))%list.

Definition scatter_all (inputs : args) (kw : kwargs) (target : pyobj) (d : Z)
    (h : machine) : Result (list args * list kwargs) * machine :=
  match scatter_args inputs target with
  | Ok ins =>
      match scatter_kws kw target with
      | Ok kws => (Ok (pad (List.length kws) ins, pad (List.length ins) kws), h)
      | Raise e => (Raise e, h)
      end
  | Raise e => (Raise e, h)
  end.

Fixpoint apply_all (ms : list Module) (inputs : list args) (kws : list kwargs)
    (h : machine) : Result (list pyobj) * machine :=
  match ms, inputs, kws with
  | m :: ms', a :: inputs', k :: kws' =>
      match answer "forward" m a k h with
      | (Ok r, h1) =>
          match apply_all ms' inputs' kws' h1 with
          | (Ok rs, h2) => (Ok (r :: rs), h2)
          | (Raise e, h2) => (Raise e, h2)
          end
      | (Raise e, h1) => (Raise e, h1)
      end
  | _, _, _ => (Ok [], h)
  end.

Definition gather_all (outputs : list pyobj) (target : Z) (h : machine)
    : Result pyobj * machine :=
  match outputs with
  | [o] => (Ok o, h)
  | _ => (Ok (PyList outputs), h)
  end.

#[global] Instance torch : Torch := {|
  Heap := machine;
  cuda_is_available := cuda;
  cuda_device_count := count;
  _get_device_index := get_device_index;
  torch_device := parse_device;
  _check_balance := fun _ h => (Ok tt, h);
  module_cuda := to_cuda;
  module_parameters := fun _ h => params h;
  module_buffers := fun _ h => buffers h;
  module_call := answer "forward";
  module_train_step := answer "train_step";
  module_val_step := answer "val_step";
  scatter_kwargs := scatter_all;
  DataParallel_replicate := fun _ m devs h => (Ok (map (fun _ => m) devs), h);
  DataParallel_parallel_apply := fun _ => apply_all;
  DataParallel_gather := fun _ => gather_all
|}.

Definition cuda0 : Device := mkDevice "cuda" (Some 0).
Definition cpu : Device := mkDevice "cpu" None.

Definition net : Module := ModuleRef 1.

(** A machine with two GPUs and a module whose weight and running mean
    are on the first. *)
Definition gpu_machine : machine :=
  {| cuda := true; count := 2;
     params := [mkTensor 10 cuda0]; buffers := [mkTensor 11 cuda0]; calls := 0 |}.

(** The same machine, the running mean left on the CPU. *)
Definition stray_machine : machine :=
  {| cuda := true; count := 2;
     params := [mkTensor 10 cuda0]; buffers := [mkTensor 11 cpu]; calls := 0 |}.

(** A machine without CUDA. *)
Definition cpu_machine : machine :=
  {| cuda := false; count := 0;
     params := [mkTensor 10 cpu]; buffers := []; calls := 0 |}.

Definition start (h : machine) : World torch := {| heap := h; trace := [] |}.

Definition one_gpu : MMDataParallel :=
  {| module := net; device_ids := [0]; dim := 0;
     output_device := Some 0; src_device_obj := Some cuda0 |}.

Definition two_gpus : MMDataParallel :=
  {| module := net; device_ids := [0; 1]; dim := 0;
     output_device := Some 0; src_device_obj := Some cuda0 |}.

Definition cpu_only : MMDataParallel :=
  {| module := net; device_ids := []; dim := 0;
     output_device := None; src_device_obj := None |}.

Definition batch : args := [PyRef 100].
(** A batch of a single sample. *)
Definition small_batch : args := [PyList [PyRef 101]].
Definition meta : kwargs := [("return_loss", PyInt 1)].

(** A machine with three GPUs, the module on the first. *)
Definition three_gpu_machine : machine :=
  {| cuda := true; count := 3;
     params := [mkTensor 10 cuda0]; buffers := [mkTensor 11 cuda0]; calls := 0 |}.

(** A gather that stacks the outputs it is given into one batch, also
    when there is a single one, as gathering does with outputs that have
    no batch axis of their own (a scalar comes back as a vector of one). *)
Definition stack_all (outputs : list pyobj) (target : Z) (h : machine)
    : Result pyobj * machine :=
  (Ok (PyList outputs), h).

(** The framework above with that gather in place of [gather_all]. *)
Definition stacking_torch : Torch := {|
  Heap := machine;
  cuda_is_available := cuda;
  cuda_device_count := count;
  _get_device_index := get_device_index;
  torch_device := parse_device;
  _check_balance := fun _ h => (Ok tt, h);
  module_cuda := to_cuda;
  module_parameters := fun _ h => params h;
  module_buffers := fun _ h => buffers h;
  module_call := answer "forward";
  module_train_step := answer "train_step";
  module_val_step := answer "val_step";
  scatter_kwargs := scatter_all;
  DataParallel_replicate := fun _ m devs h => (Ok (map (fun _ => m) devs), h);
  DataParallel_parallel_apply := fun _ => apply_all;
  DataParallel_gather := fun _ => stack_all
|}.

End Toy.

(** * Properties *)

Open Scope list_scope.

Ltac run_monad :=
  unfold scatter, replicate, parallel_apply, gather;
  unfold bind, ret, raise, lift, read, read_result, call; simpl.

Section Properties.
Context {T : Torch}.

(** ** The parameter and buffer check *)

Lemma Device_eqb_eq (a b : Device) : Device_eqb a b = true <-> a = b.
Proof.
  destruct a as [ta ia], b as [tb ib]; unfold Device_eqb; simpl.
  rewrite andb_true_iff, String.eqb_eq. split.
  - intros [-> Hi]. destruct ia, ib; try discriminate; try reflexivity.
    apply Z.eqb_eq in Hi. now subst.
  - intros [= -> ->]. split; [reflexivity |].
    destruct ib; [apply Z.eqb_refl | reflexivity].
Qed.

Lemma Device_eqb_neq (a b : Device) : Device_eqb a b = false <-> a <> b.
Proof.
  rewrite <- Device_eqb_eq. destruct (Device_eqb a b); split; congruence.
Qed.

(** The check never touches the world, whatever its outcome. *)
Lemma check_tensors_world (self : MMDataParallel) (ts : list Tensor)
    (w : World T) : snd (check_tensors self ts w) = w.
Proof.
  induction ts as [| t ts IH]; simpl; [reflexivity |].
  unfold bind, get_src_device_obj.
  destruct (src_device_obj self) as [src |]; simpl; [| reflexivity].
  destruct (Device_eqb (device t) src); simpl; [apply IH | reflexivity].
Qed.

Lemma check_tensors_pass (self : MMDataParallel) (src : Device)
    (ts : list Tensor) (w : World T) :
  src_device_obj self = Some src ->
  Forall (fun t => device t = src) ts ->
  check_tensors self ts w = (Ok tt, w).
Proof.
  intros Hsrc Hall. induction Hall as [| t ts Ht _ IH]; simpl; [reflexivity |].
  unfold bind, get_src_device_obj. rewrite Hsrc. simpl.
  apply Device_eqb_eq in Ht. rewrite Ht. simpl. exact IH.
Qed.

Lemma check_tensors_stray (self : MMDataParallel) (src : Device)
    (ts : list Tensor) (w : World T) :
  src_device_obj self = Some src ->
  Exists (fun t => device t <> src) ts ->
  exists found,
    In found (map device ts) /\ found <> src /\
    check_tensors self ts w =
      (Raise (RuntimeError (device_mismatch_message src found)), w).
Proof.
  intros Hsrc. induction ts as [| t ts IH]; intros Hex.
  - inversion Hex.
  - simpl. unfold bind, get_src_device_obj. rewrite Hsrc. simpl.
    destruct (Device_eqb (device t) src) eqn:E; simpl.
    + apply Device_eqb_eq in E.
      inversion Hex as [? ? Hne | ? ? Hrest]; subst; [contradiction |].
      destruct (IH Hrest) as (found & Hin & Hne & Hrun).
      exists found. auto.
    + apply Device_eqb_neq in E. exists (device t). auto.
Qed.

Lemma check_module_device_pass (self : MMDataParallel) (src : Device)
    (w : World T) :
  src_device_obj self = Some src ->
  Forall (fun t => device t = src) (module_tensors self (heap w)) ->
  check_module_device self w = (Ok tt, w).
Proof.
  intros Hsrc Hall. unfold check_module_device. run_monad.
  now apply check_tensors_pass with (src := src).
Qed.

Lemma check_module_device_stray (self : MMDataParallel) (src : Device)
    (w : World T) :
  src_device_obj self = Some src ->
  Exists (fun t => device t <> src) (module_tensors self (heap w)) ->
  exists found,
    In found (map device (module_tensors self (heap w))) /\ found <> src /\
    check_module_device self w =
      (Raise (RuntimeError (device_mismatch_message src found)), w).
Proof.
  intros Hsrc Hex. unfold check_module_device. run_monad.
  now apply check_tensors_stray.
Qed.

(** ** Shapes of the three methods once the guards are passed *)

Lemma first_replica_shape
    (ev : Module -> args -> kwargs -> Event)
    (method : Module -> args -> kwargs -> Heap -> Result pyobj * Heap)
    (target : pyobj) (self : MMDataParallel) (inputs : args) (kw : kwargs)
    (w : World T) :
  bind (scatter self inputs kw target)
       (fun x => let '(inputs1, kwargs1) := x in
          bind (lift (tuple_index0 inputs1)) (fun a0 =>
          bind (lift (tuple_index0 kwargs1)) (fun k0 =>
          call (ev (module self) a0 k0) (method (module self) a0 k0)))) w
  = scatter_then_first_replica ev method target self inputs kw w.
Proof.
  unfold scatter_then_first_replica. run_monad.
  destruct (scatter_kwargs inputs kw target (dim self) (heap w))
    as [[[ins kws] | e] h1]; simpl; [| reflexivity].
  destruct ins as [| a0 ins]; simpl; [reflexivity |].
  destruct kws as [| k0 kws]; simpl; [reflexivity |].
  destruct (method (module self) a0 k0 h1) as [r h2]. reflexivity.
Qed.

Lemma step_single_device (name : string)
    (ev : Module -> args -> kwargs -> Event)
    (method : Module -> args -> kwargs -> Heap -> Result pyobj * Heap)
    (self : MMDataParallel) (inputs : args) (kw : kwargs) (w : World T)
    (d : Z) (src : Device) :
  device_ids self = [d] ->
  src_device_obj self = Some src ->
  Forall (fun t => device t = src) (module_tensors self (heap w)) ->
  step name ev method self inputs kw w =
  scatter_then_first_replica ev method (ids_object [d]) self inputs kw w.
Proof.
  intros Hids Hsrc Hall. unfold step. rewrite Hids. simpl.
  unfold bind at 1. simpl. unfold bind at 1.
  rewrite (check_module_device_pass self src w Hsrc Hall).
  apply first_replica_shape.
Qed.

Lemma step_stray_tensor (name : string)
    (ev : Module -> args -> kwargs -> Event)
    (method : Module -> args -> kwargs -> Heap -> Result pyobj * Heap)
    (self : MMDataParallel) (inputs : args) (kw : kwargs) (w : World T)
    (d : Z) (e : exn) :
  device_ids self = [d] ->
  check_module_device self w = (Raise e, w) ->
  step name ev method self inputs kw w = (Raise e, w).
Proof.
  intros Hids Hcheck. unfold step. rewrite Hids. simpl.
  unfold bind at 1. simpl. unfold bind at 1. now rewrite Hcheck.
Qed.

Lemma forward_stray_tensor (self : MMDataParallel) (inputs : args)
    (kw : kwargs) (w : World T) (e : exn) :
  device_ids self <> [] ->
  check_module_device self w = (Raise e, w) ->
  forward self inputs kw w = (Raise e, w).
Proof.
  intros Hids Hcheck. unfold forward.
  destruct (device_ids self); [contradiction |]. simpl.
  unfold bind at 1. now rewrite Hcheck.
Qed.

Lemma forward_checked (self : MMDataParallel) (inputs : args) (kw : kwargs)
    (w : World T) (src : Device) :
  device_ids self <> [] ->
  src_device_obj self = Some src ->
  Forall (fun t => device t = src) (module_tensors self (heap w)) ->
  forward self inputs kw w =
  (if (List.length (device_ids self) =? 1)%nat
   then scatter_then_first_replica EvCall module_call
          (ids_object (device_ids self)) self inputs kw w
   else scatter_replicate_apply_gather self inputs kw w).
Proof.
  intros Hids Hsrc Hall. unfold forward.
  destruct (device_ids self) as [| d ids] eqn:E; [contradiction |].
  cbn [is_empty]. unfold bind at 1.
  rewrite (check_module_device_pass self src w Hsrc Hall).
  destruct (List.length (d :: ids) =? 1)%nat eqn:L.
  - apply first_replica_shape.
  - unfold scatter_replicate_apply_gather. rewrite E. reflexivity.
Qed.

End Properties.

(** ** scatter *)

(** C8. [scatter] is [scatter_kwargs(inputs, kwargs, device_ids,
    dim=self.dim)] and nothing else: the result and the framework state it
    leaves are those of that one call, on the arguments as given and the
    dimension fixed at construction, and the call is the only one made. *)
Theorem scatter_is_scatter_kwargs {T : Torch} (self : MMDataParallel)
    (inputs : args) (kw : kwargs) (target : pyobj) (w : World T) :
  fst (scatter self inputs kw target w)
    = fst (scatter_kwargs inputs kw target (dim self) (heap w)) /\
  heap (snd (scatter self inputs kw target w))
    = snd (scatter_kwargs inputs kw target (dim self) (heap w)) /\
  trace (snd (scatter self inputs kw target w))
    = trace w ++ [EvScatter inputs kw target (dim self)].
Proof.
  unfold scatter, call.
  destruct (scatter_kwargs inputs kw target (dim self) (heap w)) as [r h].
  simpl. auto.
Qed.

(** ** train_step and val_step on several devices *)

(** C3. With more than one configured device [train_step] and [val_step]
    raise AssertionError, and the world after the call is the world before
    it: nothing was scattered, the wrapped module was not entered, the
    framework state is untouched. *)
Theorem step_asserts_single_gpu {T : Torch} (self : MMDataParallel)
    (inputs : args) (kw : kwargs) (w : World T) :
  (1 < List.length (device_ids self))%nat ->
  train_step self inputs kw w = (Raise (AssertionError single_gpu_message), w) /\
  val_step self inputs kw w = (Raise (AssertionError single_gpu_message), w).
Proof.
  intros Hlen. unfold train_step, val_step, step.
  destruct (device_ids self) as [| d [| d' ids]]; simpl in Hlen; try lia.
  split; reflexivity.
Qed.

Lemma step_asserts_single_gpu_witness :
  (1 < List.length (device_ids Toy.two_gpus))%nat /\
  train_step Toy.two_gpus Toy.batch Toy.meta (Toy.start Toy.gpu_machine)
    = (Raise (AssertionError single_gpu_message), Toy.start Toy.gpu_machine) /\
  val_step Toy.two_gpus Toy.batch Toy.meta (Toy.start Toy.gpu_machine)
    = (Raise (AssertionError single_gpu_message), Toy.start Toy.gpu_machine).
Proof.
  split; [simpl; lia |].
  apply (step_asserts_single_gpu (T := Toy.torch)). simpl. lia.
Defined.

(** ** forward without CUDA *)

(** C4. On a CPU-only instance (no device ids) [forward] scatters the
    inputs and keyword arguments to the target list [[-1]] and its outcome
    is that of the wrapped module called on the first scattered replica,
    [self.module( *inputs[0], **kwargs[0])]. *)
Theorem forward_cpu_only {T : Torch} (self : MMDataParallel)
    (inputs : args) (kw : kwargs) (w : World T) :
  device_ids self = [] ->
  forward self inputs kw w =
  scatter_then_first_replica EvCall module_call (PyList [PyInt (-1)])
    self inputs kw w.
Proof.
  intros Hids. unfold forward. rewrite Hids. cbn [is_empty].
  apply first_replica_shape.
Qed.

Lemma forward_cpu_only_witness :
  device_ids Toy.cpu_only = [] /\
  forward Toy.cpu_only Toy.batch Toy.meta (Toy.start Toy.cpu_machine) =
    (Ok (PyTuple [PyStr "forward"; PyTuple Toy.batch; PyDict Toy.meta]),
     {| heap := Toy.called Toy.cpu_machine;
        trace := [EvScatter Toy.batch Toy.meta (PyList [PyInt (-1)]) 0;
                  EvCall Toy.net Toy.batch Toy.meta] |}).
Proof.
  split; [reflexivity |].
  rewrite (forward_cpu_only (T := Toy.torch)) by reflexivity.
  reflexivity.
Defined.

(** ** forward on several devices *)

(** C1. With more than one configured device, and every parameter and
    buffer on the source device, [forward] scatters the inputs and keyword
    arguments over [device_ids], replicates the wrapped module, applies
    the replicas to the scattered inputs, gathers the outputs on
    [output_device], and its outcome is that of the gathering; these four
    calls, in this order, are all it does. *)
Theorem forward_multi_device {T : Torch} (self : MMDataParallel)
    (inputs : args) (kw : kwargs) (w : World T) (src : Device)
    (ins : list args) (kws : list kwargs) (h1 : Heap)
    (replicas : list Module) (h2 : Heap)
    (outputs : list pyobj) (h3 : Heap)
    (target : Z) (r : Result pyobj) (h4 : Heap) :
  (1 < List.length (device_ids self))%nat ->
  src_device_obj self = Some src ->
  Forall (fun t => device t = src) (module_tensors self (heap w)) ->
  output_device self = Some target ->
  scatter_kwargs inputs kw (ids_object (device_ids self)) (dim self) (heap w)
    = (Ok (ins, kws), h1) ->
  DataParallel_replicate self (module self)
      (firstn (List.length ins) (device_ids self)) h1
    = (Ok replicas, h2) ->
  DataParallel_parallel_apply self replicas ins kws h2 = (Ok outputs, h3) ->
  DataParallel_gather self outputs target h3 = (r, h4) ->
  forward self inputs kw w =
  (r, {| heap := h4;
         trace := trace w ++
           [EvScatter inputs kw (ids_object (device_ids self)) (dim self);
            EvReplicate (module self)
              (firstn (List.length ins) (device_ids self));
            EvParallelApply replicas ins kws;
            EvGather outputs target] |}).
Proof.
  intros Hlen Hsrc Hall Hout Hsc Hrep Hpa Hga.
  rewrite (forward_checked self inputs kw w src); auto.
  2: { intros E. rewrite E in Hlen. simpl in Hlen. lia. }
  replace (List.length (device_ids self) =? 1)%nat with false
    by (symmetry; apply Nat.eqb_neq; lia).
  unfold scatter_replicate_apply_gather, get_output_device. rewrite Hout.
  run_monad. rewrite Hsc. simpl. rewrite Hrep. simpl. rewrite Hpa. simpl.
  rewrite Hga. rewrite <- !app_assoc. reflexivity.
Qed.

Lemma forward_multi_device_witness :
  forward Toy.two_gpus Toy.batch Toy.meta (Toy.start Toy.gpu_machine) =
  (let out := PyTuple [PyStr "forward"; PyTuple Toy.batch; PyDict Toy.meta] in
   (Ok (PyList [out; out]),
    {| heap := Toy.called (Toy.called Toy.gpu_machine);
       trace := [EvScatter Toy.batch Toy.meta (PyList [PyInt 0; PyInt 1]) 0;
                 EvReplicate Toy.net [0; 1];
                 EvParallelApply [Toy.net; Toy.net]
                   [Toy.batch; Toy.batch] [Toy.meta; Toy.meta];
                 EvGather [out; out] 0] |})).
Proof.
  set (out := PyTuple [PyStr "forward"; PyTuple Toy.batch; PyDict Toy.meta]).
  refine (forward_multi_device (T := Toy.torch) Toy.two_gpus Toy.batch Toy.meta
            (Toy.start Toy.gpu_machine) Toy.cuda0
            [Toy.batch; Toy.batch] [Toy.meta; Toy.meta] Toy.gpu_machine
            [Toy.net; Toy.net] Toy.gpu_machine
            [out; out] (Toy.called (Toy.called Toy.gpu_machine))
            0 (Ok (PyList [out; out])) (Toy.called (Toy.called Toy.gpu_machine))
            _ _ _ _ _ _ _ _).
  - simpl. lia.
  - reflexivity.
  - repeat constructor.
  - reflexivity.
  - reflexivity.
  - reflexivity.
  - reflexivity.
  - reflexivity.
Defined.

(** ** train_step and val_step on one device *)

(** C2, as stated, fails when a buffer of the wrapped module is not on
    the source device: with one configured device, [train_step] raises
    RuntimeError before anything is scattered, where the claim has it
    scatter and return the module's [train_step]. *)
Lemma train_step_single_device_stray_buffer :
  device_ids Toy.one_gpu = [0] /\
  train_step Toy.one_gpu Toy.batch Toy.meta (Toy.start Toy.stray_machine)
    = (Raise (RuntimeError (device_mismatch_message Toy.cuda0 Toy.cpu)),
       Toy.start Toy.stray_machine) /\
  train_step Toy.one_gpu Toy.batch Toy.meta (Toy.start Toy.stray_machine)
    <> scatter_then_first_replica EvTrainStep module_train_step
         (ids_object [0]) Toy.one_gpu Toy.batch Toy.meta
         (Toy.start Toy.stray_machine).
Proof.
  split; [reflexivity |]. split; [reflexivity |].
  vm_compute. discriminate.
Qed.

(** C2, amended.  [train_step] and [val_step] are entry points of the
    wrapper; with exactly one configured device and every parameter and
    buffer of the wrapped module on the source device, the call scatters
    the inputs and keyword arguments to that device and its outcome is
    that of the module's [train_step] (resp. [val_step]) on the first
    scattered replica. *)
Theorem step_single_device_delegates {T : Torch} (self : MMDataParallel)
    (inputs : args) (kw : kwargs) (w : World T) (d : Z) (src : Device) :
  device_ids self = [d] ->
  src_device_obj self = Some src ->
  Forall (fun t => device t = src) (module_tensors self (heap w)) ->
  train_step self inputs kw w =
    scatter_then_first_replica EvTrainStep module_train_step
      (PyList [PyInt d]) self inputs kw w /\
  val_step self inputs kw w =
    scatter_then_first_replica EvValStep module_val_step
      (PyList [PyInt d]) self inputs kw w.
Proof.
  intros Hids Hsrc Hall.
  split; apply step_single_device with (src := src); assumption.
Qed.

Lemma step_single_device_delegates_witness :
  train_step Toy.one_gpu Toy.batch Toy.meta (Toy.start Toy.gpu_machine) =
    (Ok (PyTuple [PyStr "train_step"; PyTuple Toy.batch; PyDict Toy.meta]),
     {| heap := Toy.called Toy.gpu_machine;
        trace := [EvScatter Toy.batch Toy.meta (PyList [PyInt 0]) 0;
                  EvTrainStep Toy.net Toy.batch Toy.meta] |}) /\
  val_step Toy.one_gpu Toy.batch Toy.meta (Toy.start Toy.gpu_machine) =
    (Ok (PyTuple [PyStr "val_step"; PyTuple Toy.batch; PyDict Toy.meta]),
     {| heap := Toy.called Toy.gpu_machine;
        trace := [EvScatter Toy.batch Toy.meta (PyList [PyInt 0]) 0;
                  EvValStep Toy.net Toy.batch Toy.meta] |}).
Proof.
  refine (step_single_device_delegates (T := Toy.torch) Toy.one_gpu Toy.batch
            Toy.meta (Toy.start Toy.gpu_machine) 0 Toy.cuda0 _ _ _).
  - reflexivity.
  - reflexivity.
  - repeat constructor.
Defined.

(** ** train_step and val_step without CUDA *)

Lemma step_cpu_only_raises (name : string) {T : Torch}
    (ev : Module -> args -> kwargs -> Event)
    (method : Module -> args -> kwargs -> Heap -> Result pyobj * Heap)
    (self : MMDataParallel) (inputs : args) (kw : kwargs) (w : World T) :
  device_ids self = [] ->
  (exists e, fst (step name ev method self inputs kw w) = Raise e) /\
  trace (snd (step name ev method self inputs kw w))
    = trace w ++ [EvScatter inputs kw (PyInt (-1)) (dim self)].
Proof.
  intros Hids. unfold step. rewrite Hids. cbn [is_empty]. run_monad.
  destruct (scatter_kwargs inputs kw (PyInt (-1)) (dim self) (heap w))
    as [[[ins kws] | e] h1]; simpl; eauto.
Qed.

(** C5.  On a CPU-only instance [train_step] and [val_step] do not take
    the form of [forward]'s CPU path: they scatter to the integer [-1]
    (not the list [[-1]]) and pass the scattered pair on whole, so the
    tuple of keyword dicts meets the double star.  Whatever the framework
    does, the call ends in an exception and scatter_kwargs is the only
    call made: the wrapped module's method is never entered. *)
Theorem step_cpu_only_never_delegates {T : Torch} (self : MMDataParallel)
    (inputs : args) (kw : kwargs) (w : World T) :
  device_ids self = [] ->
  ((exists e, fst (train_step self inputs kw w) = Raise e) /\
   trace (snd (train_step self inputs kw w))
     = trace w ++ [EvScatter inputs kw (PyInt (-1)) (dim self)]) /\
  ((exists e, fst (val_step self inputs kw w) = Raise e) /\
   trace (snd (val_step self inputs kw w))
     = trace w ++ [EvScatter inputs kw (PyInt (-1)) (dim self)]).
Proof.
  intros Hids. split; apply step_cpu_only_raises; assumption.
Qed.

Lemma step_cpu_only_never_delegates_witness :
  ((exists e, fst (train_step Toy.cpu_only Toy.batch Toy.meta
                     (Toy.start Toy.cpu_machine)) = Raise e) /\
   trace (snd (train_step Toy.cpu_only Toy.batch Toy.meta
                 (Toy.start Toy.cpu_machine)))
     = [EvScatter Toy.batch Toy.meta (PyInt (-1)) 0]) /\
  ((exists e, fst (val_step Toy.cpu_only Toy.batch Toy.meta
                     (Toy.start Toy.cpu_machine)) = Raise e) /\
   trace (snd (val_step Toy.cpu_only Toy.batch Toy.meta
                 (Toy.start Toy.cpu_machine)))
     = [EvScatter Toy.batch Toy.meta (PyInt (-1)) 0]).
Proof.
  exact (step_cpu_only_never_delegates (T := Toy.torch) Toy.cpu_only Toy.batch
           Toy.meta (Toy.start Toy.cpu_machine) eq_refl).
Defined.

(** The same call through the form of [forward]'s CPU path reaches the
    module; [train_step] as written does not, with or without inputs. *)
Example train_step_cpu_only_runs :
  scatter_then_first_replica EvTrainStep module_train_step
    (PyList [PyInt (-1)]) Toy.cpu_only Toy.batch Toy.meta
    (Toy.start Toy.cpu_machine)
  = (Ok (PyTuple [PyStr "train_step"; PyTuple Toy.batch; PyDict Toy.meta]),
     {| heap := Toy.called Toy.cpu_machine;
        trace := [EvScatter Toy.batch Toy.meta (PyList [PyInt (-1)]) 0;
                  EvTrainStep Toy.net Toy.batch Toy.meta] |}) /\
  train_step Toy.cpu_only Toy.batch Toy.meta (Toy.start Toy.cpu_machine)
  = (Raise (TypeError "'int' object is not iterable"),
     {| heap := Toy.cpu_machine;
        trace := [EvScatter Toy.batch Toy.meta (PyInt (-1)) 0] |}) /\
  train_step Toy.cpu_only [] [] (Toy.start Toy.cpu_machine)
  = (Raise (TypeError
       "train_step() argument after ** must be a mapping, not tuple"),
     {| heap := Toy.cpu_machine;
        trace := [EvScatter [] [] (PyInt (-1)) 0] |}).
Proof. repeat split. Qed.

(** ** The device check *)

Lemma first_replica_trace {T : Torch}
    (ev : Module -> args -> kwargs -> Event)
    (method : Module -> args -> kwargs -> Heap -> Result pyobj * Heap)
    (target : pyobj) (self : MMDataParallel) (inputs : args) (kw : kwargs)
    (w : World T) :
  exists rest,
    trace (snd (scatter_then_first_replica ev method target self inputs kw w))
    = trace w ++ EvScatter inputs kw target (dim self) :: rest /\
    (rest = [] \/ exists a0 k0, rest = [ev (module self) a0 k0]).
Proof.
  unfold scatter_then_first_replica.
  destruct (scatter_kwargs inputs kw target (dim self) (heap w))
    as [[[ins kws] | e] h1]; simpl; [| exists []; auto].
  destruct ins as [| a0 ins]; simpl; [exists []; auto |].
  destruct kws as [| k0 kws]; simpl; [exists []; auto |].
  destruct (method (module self) a0 k0 h1) as [r h2]. simpl.
  exists [ev (module self) a0 k0]. rewrite <- app_assoc. eauto.
Qed.

Lemma pipeline_trace {T : Torch} (self : MMDataParallel) (inputs : args)
    (kw : kwargs) (w : World T) :
  exists rest,
    trace (snd (scatter_replicate_apply_gather self inputs kw w))
    = trace w ++
      EvScatter inputs kw (ids_object (device_ids self)) (dim self) :: rest.
Proof.
  unfold scatter_replicate_apply_gather, get_output_device. run_monad.
  destruct (scatter_kwargs inputs kw (ids_object (device_ids self)) (dim self)
              (heap w)) as [[[ins kws] | e] h1]; simpl;
    [| exists []; reflexivity].
  destruct (DataParallel_replicate self (module self)
              (firstn (List.length ins) (device_ids self)) h1)
    as [[reps | e] h2]; simpl;
    [| eexists; rewrite <- app_assoc; reflexivity].
  destruct (DataParallel_parallel_apply self reps ins kws h2)
    as [[outs | e] h3]; simpl;
    [| eexists; rewrite <- !app_assoc; reflexivity].
  destruct (output_device self) as [target |]; simpl;
    [| eexists; rewrite <- !app_assoc; reflexivity].
  destruct (DataParallel_gather self outs target h3) as [r h4]; simpl.
  eexists; rewrite <- !app_assoc; reflexivity.
Qed.

(** C6, as stated, fails for [train_step] on two devices: with a buffer
    off the source device the call raises AssertionError (the single-GPU
    assertion comes first), not RuntimeError. *)
Lemma train_step_two_gpus_stray_buffer :
  device_ids Toy.two_gpus <> [] /\
  src_device_obj Toy.two_gpus = Some Toy.cuda0 /\
  Exists (fun t => device t <> Toy.cuda0)
         (module_tensors Toy.two_gpus Toy.stray_machine) /\
  train_step Toy.two_gpus Toy.batch Toy.meta (Toy.start Toy.stray_machine)
    = (Raise (AssertionError single_gpu_message), Toy.start Toy.stray_machine) /\
  forall msg,
    fst (train_step Toy.two_gpus Toy.batch Toy.meta (Toy.start Toy.stray_machine))
    <> Raise (RuntimeError msg).
Proof.
  split; [discriminate |]. split; [reflexivity |]. split.
  - apply Exists_cons_tl, Exists_cons_hd. discriminate.
  - split; [reflexivity | discriminate].
Qed.

(** C6, amended.  On an instance with configured devices, a parameter or
    buffer of the wrapped module off [src_device_obj] makes [forward]
    raise RuntimeError, and makes [train_step] and [val_step] raise it
    when exactly one device is configured; the world after the call is
    the world before it, so nothing was scattered or delegated.
    Conversely, with all of them on [src_device_obj] the call goes on to
    scatter, which is the first thing it does to the world. *)
Theorem device_check_guards {T : Torch} (self : MMDataParallel)
    (inputs : args) (kw : kwargs) (w : World T) (src : Device) :
  device_ids self <> [] ->
  src_device_obj self = Some src ->
  (Exists (fun t => device t <> src) (module_tensors self (heap w)) ->
   exists found,
     In found (map device (module_tensors self (heap w))) /\ found <> src /\
     let err : Result pyobj * World T :=
       (Raise (RuntimeError (device_mismatch_message src found)), w) in
     forward self inputs kw w = err /\
     (List.length (device_ids self) = 1%nat ->
      train_step self inputs kw w = err /\ val_step self inputs kw w = err))
  /\
  (Forall (fun t => device t = src) (module_tensors self (heap w)) ->
   let scattered :=
     EvScatter inputs kw (ids_object (device_ids self)) (dim self) in
   (exists rest,
      trace (snd (forward self inputs kw w)) = trace w ++ scattered :: rest) /\
   (List.length (device_ids self) = 1%nat ->
    (exists rest,
       trace (snd (train_step self inputs kw w)) = trace w ++ scattered :: rest) /\
    (exists rest,
       trace (snd (val_step self inputs kw w)) = trace w ++ scattered :: rest))).
Proof.
  intros Hids Hsrc. split.
  - intros Hex.
    destruct (check_module_device_stray self src w Hsrc Hex)
      as (found & Hin & Hne & Hcheck).
    exists found. repeat split; try assumption.
    + now apply forward_stray_tensor.
    + destruct (device_ids self) as [| d [| d' ids]] eqn:E;
        try discriminate; try contradiction.
      now apply step_stray_tensor with (d := d).
    + destruct (device_ids self) as [| d [| d' ids]] eqn:E;
        try discriminate; try contradiction.
      now apply step_stray_tensor with (d := d).
  - intros Hall. cbv zeta. split.
    + rewrite (forward_checked self inputs kw w src Hids Hsrc Hall).
      destruct (List.length (device_ids self) =? 1)%nat.
      * destruct (first_replica_trace EvCall module_call
                    (ids_object (device_ids self)) self inputs kw w)
          as (rest & Hrest & _). eauto.
      * apply pipeline_trace.
    + intros Hlen.
      destruct (device_ids self) as [| d [| d' ids]] eqn:E;
        try discriminate; try contradiction.
      unfold train_step, val_step.
      rewrite !(step_single_device _ _ _ self inputs kw w d src E Hsrc Hall).
      split.
      * destruct (first_replica_trace EvTrainStep module_train_step
                    (ids_object [d]) self inputs kw w) as (rest & Hrest & _).
        eauto.
      * destruct (first_replica_trace EvValStep module_val_step
                    (ids_object [d]) self inputs kw w) as (rest & Hrest & _).
        eauto.
Qed.

Lemma device_check_guards_witness :
  exists found,
    In found (map device (module_tensors Toy.one_gpu Toy.stray_machine)) /\
    found <> Toy.cuda0 /\
    let err : Result pyobj * World Toy.torch :=
      (Raise (RuntimeError (device_mismatch_message Toy.cuda0 found)),
       Toy.start Toy.stray_machine) in
    forward Toy.one_gpu Toy.batch Toy.meta (Toy.start Toy.stray_machine) = err /\
    (List.length (device_ids Toy.one_gpu) = 1%nat ->
     train_step Toy.one_gpu Toy.batch Toy.meta (Toy.start Toy.stray_machine) = err /\
     val_step Toy.one_gpu Toy.batch Toy.meta (Toy.start Toy.stray_machine) = err).
Proof.
  refine (proj1 (device_check_guards (T := Toy.torch) Toy.one_gpu Toy.batch
                   Toy.meta (Toy.start Toy.stray_machine) Toy.cuda0 _ _) _).
  - discriminate.
  - reflexivity.
  - apply Exists_cons_tl, Exists_cons_hd. discriminate.
Defined.

(** ** forward on one device *)

Lemma check_module_device_world {T : Torch} (self : MMDataParallel)
    (w : World T) : snd (check_module_device self w) = w.
Proof.
  unfold check_module_device. run_monad. apply check_tensors_world.
Qed.

Lemma forward_single_device_unfold {T : Torch} (self : MMDataParallel)
    (inputs : args) (kw : kwargs) (w : World T) (d : Z) :
  device_ids self = [d] ->
  forward self inputs kw w =
  match check_module_device self w with
  | (Ok _, w') =>
      scatter_then_first_replica EvCall module_call (ids_object [d])
        self inputs kw w'
  | (Raise e, w') => (Raise e, w')
  end.
Proof.
  intros Hids. unfold forward. rewrite Hids. cbn [is_empty]. unfold bind at 1.
  destruct (check_module_device self w) as [[[] | e] w'];
    [apply first_replica_shape | reflexivity].
Qed.

Lemma forward_single_device_cases {T : Torch} (self : MMDataParallel)
    (inputs : args) (kw : kwargs) (w : World T) (d : Z) :
  device_ids self = [d] ->
  (exists e, forward self inputs kw w = (Raise e, w)) \/
  forward self inputs kw w =
    scatter_then_first_replica EvCall module_call (ids_object [d])
      self inputs kw w.
Proof.
  intros Hids. rewrite (forward_single_device_unfold self inputs kw w d Hids).
  pose proof (check_module_device_world self w) as Hw.
  destruct (check_module_device self w) as [[[] | e] w']; simpl in Hw; subst w'.
  - right. reflexivity.
  - left. eauto.
Qed.

Lemma filter_app_single_scatter (t rest : list Event) (e : Event) :
  is_multi_device_step e = false ->
  filter is_multi_device_step rest = [] ->
  filter is_multi_device_step (t ++ e :: rest) = filter is_multi_device_step t.
Proof.
  intros He Hrest. rewrite filter_app. simpl. rewrite He, Hrest.
  apply app_nil_r.
Qed.

(** C7, as stated, fails twice over.  With a buffer of the wrapped
    module off the source device, [forward] on one configured device
    raises RuntimeError and returns no module output.  And with the check
    passed, what it returns is the module's own output, which the general
    scatter, replicate, apply, gather pipeline on that one device need not
    return: under a gather that stacks its outputs the pipeline returns a
    batch of one around it. *)
Lemma forward_single_device_diverges :
  (device_ids Toy.one_gpu = [0] /\
   forward Toy.one_gpu Toy.batch Toy.meta (Toy.start Toy.stray_machine)
     = (Raise (RuntimeError (device_mismatch_message Toy.cuda0 Toy.cpu)),
        Toy.start Toy.stray_machine) /\
   forward Toy.one_gpu Toy.batch Toy.meta (Toy.start Toy.stray_machine)
     <> scatter_then_first_replica EvCall module_call (ids_object [0])
          Toy.one_gpu Toy.batch Toy.meta (Toy.start Toy.stray_machine)) /\
  (let out := PyTuple [PyStr "forward"; PyTuple Toy.batch; PyDict Toy.meta] in
   let w : World Toy.stacking_torch :=
     @mkWorld Toy.stacking_torch Toy.gpu_machine [] in
   output_device Toy.one_gpu = Some 0 /\
   Forall (fun t => device t = Toy.cuda0)
          (module_tensors (T := Toy.stacking_torch) Toy.one_gpu Toy.gpu_machine) /\
   fst (forward (T := Toy.stacking_torch) Toy.one_gpu Toy.batch Toy.meta w)
     = Ok out /\
   fst (scatter_replicate_apply_gather (T := Toy.stacking_torch)
          Toy.one_gpu Toy.batch Toy.meta w)
     = Ok (PyList [out])).
Proof.
  split.
  - split; [reflexivity |]. split; [reflexivity |].
    vm_compute. discriminate.
  - cbv zeta. split; [reflexivity |]. split; [repeat constructor |].
    split; reflexivity.
Qed.

(** C7, amended.  With exactly one configured device [forward] never
    replicates, applies in parallel or gathers; and when every parameter
    and buffer of the wrapped module is on the source device, it scatters
    to that device and its outcome is that of the wrapped module called on
    the first scattered replica. *)
Theorem forward_single_device {T : Torch} (self : MMDataParallel)
    (inputs : args) (kw : kwargs) (w : World T) (d : Z) (src : Device) :
  device_ids self = [d] ->
  filter is_multi_device_step (trace (snd (forward self inputs kw w)))
    = filter is_multi_device_step (trace w) /\
  (src_device_obj self = Some src ->
   Forall (fun t => device t = src) (module_tensors self (heap w)) ->
   forward self inputs kw w =
     scatter_then_first_replica EvCall module_call (PyList [PyInt d])
       self inputs kw w).
Proof.
  intros Hids. split.
  - destruct (forward_single_device_cases self inputs kw w d Hids)
      as [[e He] | Hrun]; rewrite ?He, ?Hrun; [reflexivity |].
    destruct (first_replica_trace EvCall module_call (ids_object [d])
                self inputs kw w) as (rest & Hrest & Hshape).
    rewrite Hrest. apply filter_app_single_scatter; [reflexivity |].
    destruct Hshape as [-> | (a0 & k0 & ->)]; reflexivity.
  - intros Hsrc Hall.
    rewrite (forward_checked self inputs kw w src); auto.
    + rewrite Hids. reflexivity.
    + rewrite Hids. discriminate.
Qed.

Lemma forward_single_device_witness :
  filter is_multi_device_step
    (trace (snd (forward Toy.one_gpu Toy.batch Toy.meta
                   (Toy.start Toy.gpu_machine)))) = [] /\
  forward Toy.one_gpu Toy.batch Toy.meta (Toy.start Toy.gpu_machine) =
    (Ok (PyTuple [PyStr "forward"; PyTuple Toy.batch; PyDict Toy.meta]),
     {| heap := Toy.called Toy.gpu_machine;
        trace := [EvScatter Toy.batch Toy.meta (PyList [PyInt 0]) 0;
                  EvCall Toy.net Toy.batch Toy.meta] |}).
Proof.
  destruct (forward_single_device (T := Toy.torch) Toy.one_gpu Toy.batch
              Toy.meta (Toy.start Toy.gpu_machine) 0 Toy.cuda0 eq_refl)
    as [Hquiet Hrun].
  split; [exact Hquiet |].
  apply Hrun; [reflexivity | repeat constructor].
Defined.

(** ** Replication follows the scattered chunks *)

(** C9.  In a multi-device [forward] that has passed the device check and
    scattered its inputs into [ins], the module is replicated onto the
    first [len(ins)] entries of [device_ids] and onto no others (fewer
    than all of them when fewer chunks came back than devices are
    configured), and parallel_apply receives the replicas that came back
    together with the scattered chunks: one replica per chunk once
    replicate returns one replica per device it was given. *)
Theorem forward_replicates_where_scattered {T : Torch}
    (self : MMDataParallel) (inputs : args) (kw : kwargs) (w : World T)
    (src : Device) (ins : list args) (kws : list kwargs) (h1 : Heap) :
  (1 < List.length (device_ids self))%nat ->
  src_device_obj self = Some src ->
  Forall (fun t => device t = src) (module_tensors self (heap w)) ->
  scatter_kwargs inputs kw (ids_object (device_ids self)) (dim self) (heap w)
    = (Ok (ins, kws), h1) ->
  (List.length ins <= List.length (device_ids self))%nat ->
  let devices := firstn (List.length ins) (device_ids self) in
  let scattered :=
    EvScatter inputs kw (ids_object (device_ids self)) (dim self) in
  List.length devices = List.length ins /\
  (exists unused,
     device_ids self = devices ++ unused /\
     ((List.length ins < List.length (device_ids self))%nat -> unused <> [])) /\
  match DataParallel_replicate self (module self) devices h1 with
  | (Raise e, h2) =>
      forward self inputs kw w =
      (Raise e, {| heap := h2;
                   trace := trace w ++
                     [scattered; EvReplicate (module self) devices] |})
  | (Ok replicas, h2) =>
      (List.length replicas = List.length devices ->
       List.length replicas = List.length ins) /\
      exists rest,
        trace (snd (forward self inputs kw w)) =
          trace w ++ [scattered; EvReplicate (module self) devices;
                      EvParallelApply replicas ins kws] ++ rest /\
        (rest = [] \/ exists outputs target, rest = [EvGather outputs target])
  end.
Proof.
  intros Hlen Hsrc Hall Hsc Hfew devices scattered.
  assert (Hdev : List.length devices = List.length ins)
    by (unfold devices; apply firstn_length_le; exact Hfew).
  split; [exact Hdev |]. split.
  - exists (skipn (List.length ins) (device_ids self)). split.
    + unfold devices. symmetry. apply firstn_skipn.
    + intros Hlt E. apply (f_equal (@List.length Z)) in E.
      rewrite length_skipn in E. simpl in E. lia.
  - rewrite (forward_checked self inputs kw w src); auto.
    2: { intros E. rewrite E in Hlen. simpl in Hlen. lia. }
    replace (List.length (device_ids self) =? 1)%nat with false
      by (symmetry; apply Nat.eqb_neq; lia).
    unfold scatter_replicate_apply_gather, get_output_device. run_monad.
    rewrite Hsc. simpl. fold devices. fold scattered.
    destruct (DataParallel_replicate self (module self) devices h1)
      as [[replicas | e] h2]; simpl.
    + split; [congruence |].
      destruct (DataParallel_parallel_apply self replicas ins kws h2)
        as [[outputs | e] h3]; simpl.
      * destruct (output_device self) as [target |]; simpl.
        -- destruct (DataParallel_gather self outputs target h3) as [r h4].
           simpl. exists [EvGather outputs target].
           rewrite <- !app_assoc. eauto.
        -- exists []. rewrite <- !app_assoc. auto.
      * exists []. rewrite <- !app_assoc. auto.
    + rewrite <- !app_assoc. reflexivity.
Qed.

Lemma forward_replicates_where_scattered_witness :
  exists unused,
    device_ids Toy.two_gpus = [0] ++ unused /\ unused <> [] /\
    trace (snd (forward Toy.two_gpus Toy.small_batch []
                  (Toy.start Toy.gpu_machine)))
    = [EvScatter Toy.small_batch [] (PyList [PyInt 0; PyInt 1]) 0;
       EvReplicate Toy.net [0];
       EvParallelApply [Toy.net] [Toy.small_batch] [[]];
       EvGather [PyTuple [PyStr "forward"; PyTuple Toy.small_batch; PyDict []]] 0].
Proof.
  destruct (forward_replicates_where_scattered (T := Toy.torch) Toy.two_gpus
              Toy.small_batch [] (Toy.start Toy.gpu_machine) Toy.cuda0
              [Toy.small_batch] [[]] Toy.gpu_machine)
    as (_ & (unused & Hsplit & Hunused) & _).
  - simpl. lia.
  - reflexivity.
  - repeat constructor.
  - reflexivity.
  - simpl. lia.
  - exists unused. split; [exact Hsplit |]. split.
    + apply Hunused. simpl. lia.
    + reflexivity.
Defined.

(** ** The constructor *)

Lemma mapM_get_device_index {T : Torch} (given : list pyobj) (ids : list Z)
    (w : World T) :
  Forall2 (fun x i => _get_device_index x true (heap w) = Ok i) given ids ->
  mapM (fun x => read_result (_get_device_index x true)) given w = (Ok ids, w).
Proof.
  induction 1 as [| x i given ids Hx _ IH]; simpl; [reflexivity |].
  unfold bind at 1. unfold read_result at 1. rewrite Hx.
  unfold bind at 1. rewrite IH. reflexivity.
Qed.

(** [list(range(n))] has [n] entries and its [i]-th entry is [i]. *)
Lemma py_range_spec (n : nat) :
  List.length (py_range n) = n /\
  forall i, (i < n)%nat -> nth_error (py_range n) i = Some (Z.of_nat i).
Proof.
  unfold py_range. split.
  - now rewrite length_map, length_seq.
  - intros i Hi. rewrite nth_error_map, nth_error_seq.
    apply Nat.ltb_lt in Hi. now rewrite Hi.
Qed.

(** The list of the ints [0, 1, ..., n-1] is the only list with [n]
    entries whose [i]-th entry is the int [i]. *)
Lemma all_device_indices_unique (n : nat) (given : list pyobj) :
  List.length given = n ->
  (forall i, (i < n)%nat -> nth_error given i = Some (PyInt (Z.of_nat i))) ->
  given = map PyInt (py_range n).
Proof.
  intros Hlen Hnth. destruct (py_range_spec n) as [Hrlen Hrnth].
  apply nth_error_ext. intros i. rewrite nth_error_map.
  destruct (Nat.lt_ge_cases i n) as [Hi | Hi].
  - now rewrite Hnth, Hrnth.
  - assert (H1 : nth_error given i = None) by (apply nth_error_None; lia).
    assert (H2 : nth_error (py_range n) i = None)
      by (apply nth_error_None; lia).
    now rewrite H1, H2.
Qed.

(** C10.  Without CUDA [__init__] sets [module], [device_ids = []] and
    [dim], leaves [output_device] and [src_device_obj] unset and calls
    nothing.  With CUDA, a [None] for [device_ids] stands for all the
    CUDA device indices (the [device_count] ints [0], [1], ... in order),
    a [None] for [output_device] stands for the first of the device ids,
    [src_device_obj] is [torch.device('cuda:<device_ids[0]>')], and the
    wrapped module is moved onto the first device exactly when one device
    is configured. *)
Theorem init_postconditions {T : Torch} (m : Module)
    (ids0 : option (list pyobj)) (od0 : option pyobj) (d : Z) (w : World T) :
  (cuda_is_available (heap w) = false ->
   __init__ m ids0 od0 d w =
   (Ok {| module := m; device_ids := []; dim := d;
          output_device := None; src_device_obj := None |}, w)) /\
  (cuda_is_available (heap w) = true ->
   forall (given : list pyobj) (first_given : pyobj) (ids : list Z) (od : Z)
          (src : Device) (h1 : Heap),
     match ids0 with
     | None =>
         List.length given = cuda_device_count (heap w) /\
         forall i, (i < cuda_device_count (heap w))%nat ->
                   nth_error given i = Some (PyInt (Z.of_nat i))
     | Some l => given = l
     end ->
     let requested := match od0 with None => first_given | Some o => o end in
     hd_error given = Some first_given ->
     Forall2 (fun x i => _get_device_index x true (heap w) = Ok i) given ids ->
     _get_device_index requested true (heap w) = Ok od ->
     torch_device ("cuda:" ++ py_str_int (hd 0 ids)) (heap w) = Ok src ->
     _check_balance ids (heap w) = (Ok tt, h1) ->
     let self := {| module := m; device_ids := ids; dim := d;
                    output_device := Some od; src_device_obj := Some src |} in
     __init__ m ids0 od0 d w =
     if (List.length ids =? 1)%nat then
       let (r, h2) := module_cuda m first_given h1 in
       (match r with Ok _ => Ok self | Raise e => Raise e end,
        {| heap := h2;
           trace := trace w ++ [EvCheckBalance ids; EvCuda m first_given] |})
     else
       (Ok self, {| heap := h1; trace := trace w ++ [EvCheckBalance ids] |})).
Proof.
  split.
  - intros Hcpu. unfold __init__. unfold bind at 1, read at 1.
    rewrite Hcpu. reflexivity.
  - intros Hgpu given first_given ids od src h1 Hdescribed requested
           Hfirst Hids Hod Hsrc Hbal self.
    assert (Hdefault :
      match ids0 with
      | None => bind (read cuda_device_count)
                  (fun n => ret (map PyInt (py_range n)))
      | Some l => ret l
      end w = (Ok given, w)).
    { destruct ids0 as [l |]; [now subst given |].
      destruct Hdescribed as [Hlen Hnth].
      now rewrite (all_device_indices_unique _ given Hlen Hnth). }
    assert (Hgiven : list_index0 given = Ok first_given).
    { destruct given as [| x given']; [discriminate |].
      simpl in Hfirst. now injection Hfirst as ->. }
    assert (Hhd : list_index0 ids = Ok (hd 0 ids)).
    { destruct ids as [| i ids']; [| reflexivity].
      inversion Hids as [Eg |]. rewrite <- Eg in Hfirst. discriminate. }
    unfold __init__. unfold bind at 1, read at 1. rewrite Hgpu. cbn [negb].
    unfold bind at 1. rewrite Hdefault.
    assert (Hrequested :
      match od0 with
      | None => lift (list_index0 given)
      | Some o => ret o
      end w = (Ok requested, w)).
    { destruct od0; [reflexivity |]. unfold lift. now rewrite Hgiven. }
    unfold bind at 1. rewrite Hrequested.
    unfold bind at 1. rewrite (mapM_get_device_index given ids w Hids).
    unfold bind at 1, read_result at 1. rewrite Hod.
    unfold bind at 1, lift at 1. rewrite Hhd.
    unfold bind at 1, read_result at 1. rewrite Hsrc.
    unfold bind at 1, call at 1. rewrite Hbal. fold self.
    destruct (List.length ids =? 1)%nat; [| reflexivity].
    unfold bind at 1, lift at 1. rewrite Hgiven. cbn [heap trace].
    unfold bind, call, ret. cbn [heap trace].
    destruct (module_cuda m first_given h1) as [[[] | e] h2];
      rewrite <- ?app_assoc; reflexivity.
Qed.

Lemma init_postconditions_witness :
  __init__ Toy.net None None 0 (Toy.start Toy.cpu_machine) =
    (Ok Toy.cpu_only, Toy.start Toy.cpu_machine) /\
  __init__ Toy.net (Some [PyInt 1]) None 0 (Toy.start Toy.stray_machine) =
    (Ok {| module := Toy.net; device_ids := [1]; dim := 0;
           output_device := Some 1;
           src_device_obj := Some (mkDevice "cuda" (Some 1)) |},
     {| heap := {| Toy.cuda := true; Toy.count := 2;
                   Toy.params := [mkTensor 10 (mkDevice "cuda" (Some 1))];
                   Toy.buffers := [mkTensor 11 (mkDevice "cuda" (Some 1))];
                   Toy.calls := 0 |};
        trace := [EvCheckBalance [1]; EvCuda Toy.net (PyInt 1)] |}) /\
  __init__ Toy.net None None 0 (Toy.start Toy.three_gpu_machine) =
    (Ok {| module := Toy.net; device_ids := [0; 1; 2]; dim := 0;
           output_device := Some 0; src_device_obj := Some Toy.cuda0 |},
     {| heap := Toy.three_gpu_machine;
        trace := [EvCheckBalance [0; 1; 2]] |}).
Proof.
  split; [| split].
  - exact (proj1 (init_postconditions (T := Toy.torch) Toy.net None None 0
                    (Toy.start Toy.cpu_machine)) eq_refl).
  - refine (proj2 (init_postconditions (T := Toy.torch) Toy.net
                     (Some [PyInt 1]) None 0 (Toy.start Toy.stray_machine))
              eq_refl [PyInt 1] (PyInt 1) [1] 1 (mkDevice "cuda" (Some 1))
              Toy.stray_machine _ _ _ _ _ _).
    + reflexivity.
    + reflexivity.
    + repeat constructor.
    + reflexivity.
    + reflexivity.
    + reflexivity.
  - refine (proj2 (init_postconditions (T := Toy.torch) Toy.net None None 0
                     (Toy.start Toy.three_gpu_machine))
              eq_refl [PyInt 0; PyInt 1; PyInt 2] (PyInt 0) [0; 1; 2] 0
              Toy.cuda0 Toy.three_gpu_machine _ _ _ _ _ _).
    + split; [reflexivity |].
      intros [| [| [| i]]] Hi; try reflexivity.
      simpl in Hi. lia.
    + reflexivity.
    + repeat constructor.
    + reflexivity.
    + reflexivity.
    + reflexivity.
Defined.

(** * Further properties of the constructor *)

(** Normalising the device ids reads the framework state and never
    changes it; when it succeeds every id was accepted, in order. *)
Lemma mapM_get_device_index_inv {T : Torch} (given : list pyobj)
    (w w' : World T) (r : Result (list Z)) :
  mapM (fun x => read_result (_get_device_index x true)) given w = (r, w') ->
  w' = w /\
  forall ids,
    r = Ok ids ->
    Forall2 (fun x i => _get_device_index x true (heap w) = Ok i) given ids.
Proof.
  revert r w'. induction given as [| x given IH]; intros r w'; simpl.
  - intros [= <- <-]. split; [reflexivity |]. intros ids [= <-]. constructor.
  - unfold bind at 1. unfold read_result at 1.
    destruct (_get_device_index x true (heap w)) as [i | e] eqn:Hx.
    + unfold bind at 1.
      destruct (mapM (fun x0 => read_result (_get_device_index x0 true)) given w)
        as [r1 w1] eqn:Hrest.
      destruct (IH r1 w1 eq_refl) as [-> Hall].
      destruct r1 as [ids' | e]; intros [= <- <-]; (split; [reflexivity |]).
      * intros ids [= <-]. constructor; [exact Hx | now apply Hall].
      * discriminate.
    + intros [= <- <-]. split; [reflexivity | discriminate].
Qed.

Lemma mapM_get_device_index_rejected {T : Torch} (good rest : list pyobj)
    (x : pyobj) (ids : list Z) (e : exn) (w : World T) :
  Forall2 (fun y i => _get_device_index y true (heap w) = Ok i) good ids ->
  _get_device_index x true (heap w) = Raise e ->
  mapM (fun y => read_result (_get_device_index y true)) (good ++ x :: rest) w
    = (Raise e, w).
Proof.
  intros Hgood Hx. induction Hgood as [| y i good ids Hy _ IH]; simpl.
  - unfold bind at 1, read_result at 1. now rewrite Hx.
  - unfold bind at 1, read_result at 1. rewrite Hy.
    unfold bind at 1. now rewrite IH.
Qed.

(** The device ids [__init__] works with when CUDA is there: the ones
    given, or [list(range(device_count))]. *)
Lemma init_given_ids {T : Torch} (ids0 : option (list pyobj)) (w : World T) :
  match ids0 with
  | None => bind (read cuda_device_count) (fun n => ret (map PyInt (py_range n)))
  | Some l => ret l
  end w =
  (Ok match ids0 with
      | None => map PyInt (py_range (cuda_device_count (heap w)))
      | Some l => l
      end, w).
Proof. destruct ids0; reflexivity. Qed.

(** X1.  With CUDA available and no device to work with (an empty
    [device_ids] list, or the default on a machine that reports zero
    devices), [__init__] raises and calls neither [_check_balance] nor
    [module.cuda]; the exception is the IndexError of [device_ids[0]]
    unless normalising a given [output_device] fails first. *)
Theorem init_without_devices_raises {T : Torch} (m : Module)
    (ids0 : option (list pyobj)) (od0 : option pyobj) (d : Z) (w : World T) :
  cuda_is_available (heap w) = true ->
  match ids0 with
  | None => map PyInt (py_range (cuda_device_count (heap w)))
  | Some l => l
  end = [] ->
  exists e,
    __init__ m ids0 od0 d w = (Raise e, w) /\
    match od0 with
    | None => e = IndexError "list index out of range"
    | Some o =>
        match _get_device_index o true (heap w) with
        | Ok _ => e = IndexError "list index out of range"
        | Raise e' => e = e'
        end
    end.
Proof.
  intros Hgpu Hnone. unfold __init__. unfold bind at 1, read at 1.
  rewrite Hgpu. cbn [negb]. unfold bind at 1. rewrite init_given_ids, Hnone.
  destruct od0 as [o |].
  - unfold bind at 1, ret at 1. unfold bind at 1. simpl mapM. unfold ret at 1.
    unfold bind at 1, read_result at 1. cbn [heap].
    destruct (_get_device_index o true (heap w)) as [od | e'].
    + eexists. split; reflexivity.
    + eexists. split; reflexivity.
  - eexists. split; reflexivity.
Qed.

Lemma init_without_devices_raises_witness :
  exists e,
    __init__ Toy.net (Some []) (Some (PyInt 1)) 0 (Toy.start Toy.gpu_machine)
      = (Raise e, Toy.start Toy.gpu_machine) /\
    e = IndexError "list index out of range".
Proof.
  exact (init_without_devices_raises (T := Toy.torch) Toy.net (Some [])
           (Some (PyInt 1)) 0 (Toy.start Toy.gpu_machine) eq_refl eq_refl).
Defined.

(** X2.  With CUDA available, the first device id that
    [_get_device_index] rejects makes [__init__] raise that very error,
    before [_check_balance] or [module.cuda] is called. *)
Theorem init_rejected_device_id {T : Torch} (m : Module)
    (ids0 : option (list pyobj)) (od0 : option pyobj) (d : Z) (w : World T)
    (good rest : list pyobj) (x : pyobj) (ids : list Z) (e : exn) :
  cuda_is_available (heap w) = true ->
  match ids0 with
  | None => map PyInt (py_range (cuda_device_count (heap w)))
  | Some l => l
  end = good ++ x :: rest ->
  Forall2 (fun y i => _get_device_index y true (heap w) = Ok i) good ids ->
  _get_device_index x true (heap w) = Raise e ->
  __init__ m ids0 od0 d w = (Raise e, w).
Proof.
  intros Hgpu Hgiven Hgood Hx. unfold __init__. unfold bind at 1, read at 1.
  rewrite Hgpu. cbn [negb]. unfold bind at 1. rewrite init_given_ids, Hgiven.
  assert (Hrequested : exists o,
    match od0 with
    | None => lift (list_index0 (good ++ x :: rest))
    | Some o => ret o
    end w = (Ok o, w)).
  { destruct od0 as [o |]; [now exists o |].
    destruct good; simpl; eexists; reflexivity. }
  destruct Hrequested as [o Ho]. unfold bind at 1. rewrite Ho.
  unfold bind at 1.
  now rewrite (mapM_get_device_index_rejected good rest x ids e w Hgood Hx).
Qed.

Lemma init_rejected_device_id_witness :
  __init__ Toy.net (Some [PyInt 0; PyStr "cpu"; PyInt 1]) None 0
    (Toy.start Toy.gpu_machine)
  = (Raise (OtherError "ValueError" "Expected a cuda device"),
     Toy.start Toy.gpu_machine).
Proof.
  refine (init_rejected_device_id (T := Toy.torch) Toy.net
            (Some [PyInt 0; PyStr "cpu"; PyInt 1]) None 0
            (Toy.start Toy.gpu_machine) [PyInt 0] [PyInt 1] (PyStr "cpu") [0]
            _ eq_refl eq_refl _ eq_refl).
  repeat constructor.
Defined.

(** X3.  What every instance that [__init__] returns looks like.  Without
    CUDA it has no device ids and neither [output_device] nor
    [src_device_obj], and nothing was called.  With CUDA it has at least
    one device id, both attributes are set, [src_device_obj] is the device
    built from the first id, and an omitted [output_device] is the first
    id: outputs are gathered where the module lives. *)
Theorem init_result_shape {T : Torch} (m : Module)
    (ids0 : option (list pyobj)) (od0 : option pyobj) (d : Z)
    (w w' : World T) (self : MMDataParallel) :
  __init__ m ids0 od0 d w = (Ok self, w') ->
  module self = m /\ dim self = d /\
  if cuda_is_available (heap w) then
    exists first rest od src,
      device_ids self = first :: rest /\
      output_device self = Some od /\
      src_device_obj self = Some src /\
      torch_device ("cuda:" ++ py_str_int first) (heap w) = Ok src /\
      (od0 = None -> od = first)
  else
    device_ids self = [] /\ output_device self = None /\
    src_device_obj self = None /\ w' = w.
Proof.
  unfold __init__. unfold bind at 1, read at 1.
  destruct (cuda_is_available (heap w)) eqn:Hgpu; cbn [negb].
  2: { intros [= <- <-]. simpl. repeat split. }
  unfold bind at 1. rewrite init_given_ids.
  set (given := match ids0 with
                | None => map PyInt (py_range (cuda_device_count (heap w)))
                | Some l => l
                end).
  unfold bind at 1.
  destruct (match od0 with
            | None => lift (list_index0 given)
            | Some o => ret o
            end w) as [[requested | e] w0] eqn:Hreq; [| discriminate].
  assert (Hw0 : w0 = w /\ (od0 = None -> list_index0 given = Ok requested)).
  { destruct od0; unfold lift, ret in Hreq; injection Hreq as Hr Hw;
      split; auto; discriminate. }
  destruct Hw0 as [-> Hdefault].
  unfold bind at 1.
  destruct (mapM (fun x => read_result (_get_device_index x true)) given w)
    as [[ids | e] w1] eqn:Hmap; [| discriminate].
  destruct (mapM_get_device_index_inv given w w1 (Ok ids) Hmap) as [-> Hall].
  specialize (Hall ids eq_refl).
  unfold bind at 1, read_result at 1.
  destruct (_get_device_index requested true (heap w)) as [od | e] eqn:Hod;
    [| discriminate].
  unfold bind at 1, lift at 1.
  destruct ids as [| first rest]; [discriminate |]. cbn [list_index0].
  unfold bind at 1, read_result at 1.
  destruct (torch_device ("cuda:" ++ py_str_int first) (heap w))
    as [src | e] eqn:Hsrc; [| discriminate].
  unfold bind at 1, call at 1.
  destruct (_check_balance (first :: rest) (heap w)) as [[[] | e] h1];
    [| discriminate].
  assert (Hshape : forall self0 : MMDataParallel,
            self0 = {| module := m; device_ids := first :: rest; dim := d;
                       output_device := Some od; src_device_obj := Some src |} ->
            module self0 = m /\ dim self0 = d /\
            exists first' rest' od' src',
              device_ids self0 = first' :: rest' /\
              output_device self0 = Some od' /\
              src_device_obj self0 = Some src' /\
              torch_device ("cuda:" ++ py_str_int first') (heap w) = Ok src' /\
              (od0 = None -> od' = first')).
  { intros self0 ->. simpl. split; [reflexivity |]. split; [reflexivity |].
    exists first, rest, od, src. repeat split; try assumption.
    intros Hnone. specialize (Hdefault Hnone).
    inversion Hall as [| x i xs is' Hx _ Ex Ei]; subst.
    rewrite <- Ex in Hdefault. simpl in Hdefault.
    injection Hdefault as <-. congruence. }
  destruct (List.length (first :: rest) =? 1)%nat.
  - unfold bind at 1, lift at 1.
    destruct (list_index0 given) as [d0 | e]; [| discriminate].
    unfold bind at 1, call at 1. cbn [heap trace].
    destruct (module_cuda m d0 h1) as [[[] | e] h2]; [| discriminate].
    unfold ret. intros [= <- _]. now apply Hshape.
  - unfold ret. intros [= <- _]. now apply Hshape.
Qed.

Lemma init_result_shape_witness :
  exists first rest od src,
    device_ids Toy.two_gpus = first :: rest /\
    output_device Toy.two_gpus = Some od /\
    src_device_obj Toy.two_gpus = Some src /\
    Toy.parse_device ("cuda:" ++ py_str_int first) Toy.gpu_machine = Ok src /\
    (@None pyobj = None -> od = first).
Proof.
  exact (proj2 (proj2 (init_result_shape (T := Toy.torch) Toy.net None None 0
                         (Toy.start Toy.gpu_machine)
                         {| heap := Toy.gpu_machine;
                            trace := [EvCheckBalance [0; 1]] |}
                         Toy.two_gpus eq_refl))).
Defined.

(** X4.  Built on a machine without CUDA, whatever devices and output
    device were asked for, the wrapper runs [forward] on the CPU path:
    one scatter to the target list [[-1]] along the [dim] given to the
    constructor, then the wrapped module on the first scattered replica. *)
Theorem init_then_forward_without_cuda {T : Torch} (m : Module)
    (ids0 : option (list pyobj)) (od0 : option pyobj) (d : Z)
    (inputs : args) (kw : kwargs) (w : World T) :
  cuda_is_available (heap w) = false ->
  bind (__init__ m ids0 od0 d) (fun self => forward self inputs kw) w =
  match scatter_kwargs inputs kw (PyList [PyInt (-1)]) d (heap w) with
  | (Ok (a0 :: _, k0 :: _), h1) =>
      let (r, h2) := module_call m a0 k0 h1 in
      (r, {| heap := h2;
             trace := trace w ++
               [EvScatter inputs kw (PyList [PyInt (-1)]) d; EvCall m a0 k0] |})
  | (Ok _, h1) =>
      (Raise (IndexError "tuple index out of range"),
       {| heap := h1;
          trace := trace w ++ [EvScatter inputs kw (PyList [PyInt (-1)]) d] |})
  | (Raise e, h1) =>
      (Raise e,
       {| heap := h1;
          trace := trace w ++ [EvScatter inputs kw (PyList [PyInt (-1)]) d] |})
  end.
Proof.
  intros Hcpu. unfold bind at 1. unfold __init__. unfold bind at 1, read at 1.
  rewrite Hcpu. cbn [negb]. unfold ret at 1. unfold forward. cbn [device_ids is_empty].
  rewrite first_replica_shape. unfold scatter_then_first_replica.
  cbn [dim module].
  destruct (scatter_kwargs inputs kw (PyList [PyInt (-1)]) d (heap w))
    as [[[ins kws] | e] h1]; [| reflexivity].
  destruct ins as [| a0 ins]; [reflexivity |].
  destruct kws as [| k0 kws]; [reflexivity |].
  destruct (module_call m a0 k0 h1) as [r h2].
  rewrite <- app_assoc. reflexivity.
Qed.

Lemma init_then_forward_without_cuda_witness :
  bind (__init__ Toy.net (Some [PyInt 0; PyInt 1]) (Some (PyInt 1)) 0)
       (fun self => forward self Toy.batch Toy.meta) (Toy.start Toy.cpu_machine)
  = (Ok (PyTuple [PyStr "forward"; PyTuple Toy.batch; PyDict Toy.meta]),
     {| heap := Toy.called Toy.cpu_machine;
        trace := [EvScatter Toy.batch Toy.meta (PyList [PyInt (-1)]) 0;
                  EvCall Toy.net Toy.batch Toy.meta] |}).
Proof.
  exact (init_then_forward_without_cuda (T := Toy.torch) Toy.net
           (Some [PyInt 0; PyInt 1]) (Some (PyInt 1)) 0 Toy.batch Toy.meta
           (Toy.start Toy.cpu_machine) eq_refl).
Defined.

(** * Further properties of the three methods *)

Lemma forward_cpu_only_shape {T : Torch} (self : MMDataParallel)
    (inputs : args) (kw : kwargs) (w : World T) :
  device_ids self = [] ->
  forward self inputs kw w =
  scatter_then_first_replica EvCall module_call (PyList [PyInt (-1)])
    self inputs kw w.
Proof.
  intros Hids. unfold forward. rewrite Hids. cbn [is_empty].
  apply first_replica_shape.
Qed.

Lemma check_tensors_first_stray {T : Torch} (self : MMDataParallel)
    (src : Device) (good rest : list Tensor) (t : Tensor) (w : World T) :
  src_device_obj self = Some src ->
  Forall (fun t' => device t' = src) good ->
  device t <> src ->
  check_tensors self (good ++ t :: rest) w =
    (Raise (RuntimeError (device_mismatch_message src (device t))), w).
Proof.
  intros Hsrc Hgood Ht. induction Hgood as [| t' good Ht' _ IH]; simpl.
  - unfold bind, get_src_device_obj. rewrite Hsrc. simpl.
    apply Device_eqb_neq in Ht. now rewrite Ht.
  - unfold bind, get_src_device_obj. rewrite Hsrc. simpl.
    apply Device_eqb_eq in Ht'. rewrite Ht'. simpl. exact IH.
Qed.

(** X5.  The RuntimeError of the device check names the device of the
    first tensor off the source device, parameters being looked at before
    buffers: tensors after it are not examined.  This holds for [forward]
    with any configured devices and for [train_step] and [val_step] with
    exactly one. *)
Theorem device_check_reports_first_stray {T : Torch} (self : MMDataParallel)
    (inputs : args) (kw : kwargs) (w : World T) (src : Device)
    (good rest : list Tensor) (t : Tensor) :
  device_ids self <> [] ->
  src_device_obj self = Some src ->
  module_parameters (module self) (heap w)
    ++ module_buffers (module self) (heap w) = good ++ t :: rest ->
  Forall (fun t' => device t' = src) good ->
  device t <> src ->
  let err : Result pyobj * World T :=
    (Raise (RuntimeError
       ("module must have its parameters and buffers on device "
        ++ Device_str src
        ++ " (device_ids[0]) but found one of them on device: "
        ++ Device_str (device t))%string), w) in
  forward self inputs kw w = err /\
  (List.length (device_ids self) = 1%nat ->
   train_step self inputs kw w = err /\ val_step self inputs kw w = err).
Proof.
  intros Hids Hsrc Hsplit Hgood Ht err.
  assert (Hcheck : check_module_device self w =
                   (Raise (RuntimeError (device_mismatch_message src (device t))), w)).
  { unfold check_module_device. run_monad. rewrite Hsplit.
    now apply check_tensors_first_stray. }
  split.
  - now apply forward_stray_tensor.
  - intros Hlen.
    destruct (device_ids self) as [| d [| d' ids]] eqn:E;
      try discriminate; try contradiction.
    split; now apply step_stray_tensor with (d := d).
Qed.

Lemma device_check_reports_first_stray_witness :
  let err : Result pyobj * World Toy.torch :=
    (Raise (RuntimeError
       "module must have its parameters and buffers on device cuda:0 (device_ids[0]) but found one of them on device: cpu"),
     Toy.start Toy.stray_machine) in
  forward Toy.one_gpu Toy.batch Toy.meta (Toy.start Toy.stray_machine) = err /\
  (List.length (device_ids Toy.one_gpu) = 1%nat ->
   train_step Toy.one_gpu Toy.batch Toy.meta (Toy.start Toy.stray_machine) = err /\
   val_step Toy.one_gpu Toy.batch Toy.meta (Toy.start Toy.stray_machine) = err).
Proof.
  refine (device_check_reports_first_stray (T := Toy.torch) Toy.one_gpu
            Toy.batch Toy.meta (Toy.start Toy.stray_machine) Toy.cuda0
            [mkTensor 10 Toy.cuda0] [] (mkTensor 11 Toy.cpu) _ eq_refl eq_refl _ _).
  - discriminate.
  - repeat constructor.
  - discriminate.
Defined.

(** X6.  When scattering comes back with no chunk of positional arguments
    or no chunk of keyword arguments, the CPU path and the one-device path
    have no first replica to pass on: [forward], and on one device
    [train_step] and [val_step], raise IndexError after the scatter and
    the wrapped module is not called. *)
Theorem no_chunk_no_call {T : Torch} (self : MMDataParallel)
    (inputs : args) (kw : kwargs) (w : World T) (src : Device)
    (ins : list args) (kws : list kwargs) (h1 : Heap) :
  (List.length (device_ids self) <= 1)%nat ->
  (device_ids self <> [] ->
   src_device_obj self = Some src /\
   Forall (fun t => device t = src) (module_tensors self (heap w))) ->
  let target := if is_empty (device_ids self) then PyList [PyInt (-1)]
                else ids_object (device_ids self) in
  scatter_kwargs inputs kw target (dim self) (heap w) = (Ok (ins, kws), h1) ->
  ins = [] \/ kws = [] ->
  let err : Result pyobj * World T :=
    (Raise (IndexError "tuple index out of range"),
     {| heap := h1;
        trace := trace w ++ [EvScatter inputs kw target (dim self)] |}) in
  forward self inputs kw w = err /\
  (device_ids self <> [] ->
   train_step self inputs kw w = err /\ val_step self inputs kw w = err).
Proof.
  intros Hlen Hcheck target Hsc Hempty err.
  assert (Hshape : forall ev method,
            scatter_then_first_replica ev method target self inputs kw w = err).
  { intros ev method. unfold scatter_then_first_replica. rewrite Hsc.
    destruct Hempty as [-> | ->]; [reflexivity |].
    destruct ins; reflexivity. }
  destruct (device_ids self) as [| d [| d' ids]] eqn:E;
    [| | simpl in Hlen; lia].
  - split; [| contradiction].
    rewrite (forward_cpu_only_shape self inputs kw w E). apply Hshape.
  - destruct Hcheck as [Hsrc Hall]; [discriminate |].
    split; [| intros _; split].
    + rewrite (forward_checked self inputs kw w src); rewrite ?E; auto.
      * apply Hshape.
      * discriminate.
    + unfold train_step.
      rewrite (step_single_device _ _ _ self inputs kw w d src E Hsrc Hall).
      apply Hshape.
    + unfold val_step.
      rewrite (step_single_device _ _ _ self inputs kw w d src E Hsrc Hall).
      apply Hshape.
Qed.

Lemma no_chunk_no_call_witness :
  forward Toy.cpu_only [] [] (Toy.start Toy.cpu_machine) =
    (Raise (IndexError "tuple index out of range"),
     {| heap := Toy.cpu_machine;
        trace := [EvScatter [] [] (PyList [PyInt (-1)]) 0] |}) /\
  forward Toy.one_gpu [] [] (Toy.start Toy.gpu_machine) =
    (Raise (IndexError "tuple index out of range"),
     {| heap := Toy.gpu_machine;
        trace := [EvScatter [] [] (PyList [PyInt 0]) 0] |}).
Proof.
  split.
  - refine (proj1 (no_chunk_no_call (T := Toy.torch) Toy.cpu_only [] []
                     (Toy.start Toy.cpu_machine) Toy.cpu [] [] Toy.cpu_machine
                     _ _ eq_refl _)).
    + simpl. lia.
    + intros H. now contradiction H.
    + now left.
  - refine (proj1 (no_chunk_no_call (T := Toy.torch) Toy.one_gpu [] []
                     (Toy.start Toy.gpu_machine) Toy.cuda0 [] [] Toy.gpu_machine
                     _ _ eq_refl _)).
    + simpl. lia.
    + intros _. split; [reflexivity | repeat constructor].
    + now left.
Defined.







(** * Further properties of forward on several devices *)



